(** * pydatapipes: pipeline verbs, deferred operations and pipe sources

    A shallow embedding of [pydatapipes/pipes.py]: the class [PipeVerb],
    the decorators [pipeverb] and [singledispatch_pipeverb], and
    [make_pipesource], together with the part of the Python object model
    they run on (class dictionaries, attribute lookup along the method
    resolution order, and the protocol of the binary operator [>>]).

    Scope of the embedding.  The functions a user writes (verbs, generic
    functions, registered implementations, the operators of user classes)
    are functions of their arguments: they return a value or raise, and do
    not look at the store.  Classes are addressed by name; an instance
    has no attribute of its own that shadows a class attribute; [PipeVerb]
    is not subclassed.  [functools.singledispatch] and [functools.wraps]
    belong to the platform and are modelled by what the repository relies
    on. *)

From Stdlib Require Import ZArith.
From stdpp Require Import gmap strings list fin_maps.

Open Scope string_scope.
Set Warnings "-register-all".

(** ** Values *)

(** Function objects that can be passed around, decorated and piped.
    [FUser n] is the n-th plain function of the program under study;
    [FDispatch l] is the wrapper returned by [singledispatch], whose
    mutable state (the registry) lives in the store at location [l];
    [FDecorated] is the closure [decorated] built by [pipeverb], with the
    attributes it carries: the closed-over [func], [__name__], [__doc__]
    and, when present, [register] (the registry the capability is bound
    to). *)
Inductive pyfunc : Type :=
| FUser (n : nat)
| FDispatch (l : nat)
| FDecorated (inner : pyfunc) (name : string) (doc : option string)
             (register : option nat).

(** Python values.  [VObj cls fields] is an instance of a user-defined
    class; [VVerb pipe_func args kwargs] is an instance of [PipeVerb]
    with its three attributes. *)
Inductive value : Type :=
| VNone
| VNotImplemented
| VInt (z : Z)
| VStr (s : string)
| VList (items : list value)
| VObj (cls : string) (fields : list value)
| VFun (f : pyfunc)
| VVerb (pipe_func : value) (args : list value) (kwargs : list (string * value)).

Inductive exn : Type := Exn (kind msg : string).

Inductive result (A : Type) : Type :=
| Ok (a : A)
| Raise (e : exn).
Arguments Ok {A} a.
Arguments Raise {A} e.

(** The plain functions of the program: what the user wrote.  A body
    receives the positional arguments and the keyword arguments of the
    call and either returns a value or raises. *)
Record program : Type := {
  fn_name : nat -> string;
  fn_doc : nat -> option string;
  fn_body : nat -> list value -> list (string * value) -> result value
}.

(** ** Classes and the store *)

(** What a class dictionary binds the operator hooks to: a function
    object, the closure [__rshift__] created by [make_pipesource] (with
    its attribute [pipeoperator]), the slots of [int], or the method
    [PipeVerb.__rrshift__]. *)
Inductive meth : Type :=
| MFunc (f : pyfunc)
| MPipeOperator (pipeoperator : bool)
| MIntRshift
| MIntRRshift
| MVerbRRshift.

(** A class: its linearised proper ancestors ([__mro__] without the class
    itself and without the final [object]) and its own dictionary. *)
Record class_rec : Type := {
  c_supers : list string;
  c_dict : gmap string meth
}.

(** The state of one [singledispatch] function: the metadata copied from
    the generic function, the generic function itself and the registry
    from classes to implementations. *)
Record dispatcher : Type := {
  d_name : string;
  d_doc : option string;
  d_default : nat;
  d_registry : gmap string nat
}.

Record world : Type := {
  classes : gmap string class_rec;
  dispatchers : list dispatcher
}.

Definition set_classes (f : gmap string class_rec -> gmap string class_rec)
    (w : world) : world :=
  {| classes := f (classes w); dispatchers := dispatchers w |}.

Definition set_dispatchers (f : list dispatcher -> list dispatcher)
    (w : world) : world :=
  {| classes := classes w; dispatchers := f (dispatchers w) |}.

Definition set_dict (f : gmap string meth -> gmap string meth)
    (r : class_rec) : class_rec :=
  {| c_supers := c_supers r; c_dict := f (c_dict r) |}.

Definition set_registry (f : gmap string nat -> gmap string nat)
    (d : dispatcher) : dispatcher :=
  {| d_name := d_name d; d_doc := d_doc d; d_default := d_default d;
     d_registry := f (d_registry d) |}.

(** The classes that exist before any user class is defined.  Only the
    hooks of [>>] are listed in their dictionaries.  [PipeVerb] has
    [__rrshift__] and no [__rshift__]. *)
Definition builtin_classes : list (string * class_rec) :=
  [ ("object", {| c_supers := []; c_dict := ∅ |});
    ("int", {| c_supers := [];
               c_dict := <["__rshift__" := MIntRshift]>
                           (<["__rrshift__" := MIntRRshift]> ∅) |});
    ("str", {| c_supers := []; c_dict := ∅ |});
    ("list", {| c_supers := []; c_dict := ∅ |});
    ("NoneType", {| c_supers := []; c_dict := ∅ |});
    ("NotImplementedType", {| c_supers := []; c_dict := ∅ |});
    ("function", {| c_supers := []; c_dict := ∅ |});
    ("PipeVerb", {| c_supers := [];
                    c_dict := <["__rrshift__" := MVerbRRshift]> ∅ |}) ].

Fixpoint assoc {A : Type} (k : string) (l : list (string * A)) : option A :=
  match l with
  | [] => None
  | (k', a) :: rest => if String.eqb k k' then Some a else assoc k rest
  end.

Definition builtin_class (c : string) : option class_rec :=
  assoc c builtin_classes.

Definition is_builtin (c : string) : bool :=
  match builtin_class c with Some _ => true | None => false end.

Definition get_class (w : world) (c : string) : option class_rec :=
  match builtin_class c with
  | Some r => Some r
  | None => classes w !! c
  end.

(** [cls.__mro__] *)
Definition mro (w : world) (c : string) : list string :=
  c :: match get_class w c with
       | Some r => c_supers r
       | None => []
       end ++ ["object"].

Definition class_dict (w : world) (c : string) : gmap string meth :=
  match get_class w c with
  | Some r => c_dict r
  | None => ∅
  end.

Fixpoint lookup_along (w : world) (cs : list string) (attr : string)
    : option meth :=
  match cs with
  | [] => None
  | c :: rest =>
      match class_dict w c !! attr with
      | Some m => Some m
      | None => lookup_along w rest attr
      end
  end.

(** Attribute lookup on a class: the first dictionary along the MRO that
    binds the name.  [hasattr(cls, attr)] is [is_Some (type_lookup ...)]. *)
Definition type_lookup (w : world) (c : string) (attr : string) : option meth :=
  lookup_along w (mro w c) attr.

(** [type(v).__name__] *)
Definition type_of (v : value) : string :=
  match v with
  | VNone => "NoneType"
  | VNotImplemented => "NotImplementedType"
  | VInt _ => "int"
  | VStr _ => "str"
  | VList _ => "list"
  | VObj cls _ => cls
  | VFun _ => "function"
  | VVerb _ _ _ => "PipeVerb"
  end.

(** [isinstance(v, PipeVerb)] *)
Definition isinstance_PipeVerb (v : value) : bool :=
  match v with VVerb _ _ _ => true | _ => false end.

(** Function objects are compared by identity in Python; here two
    function objects are the same when they are the same term. *)
#[global] Instance pyfunc_eq_dec : EqDecision pyfunc.
Proof. solve_decision. Defined.

#[global] Instance meth_eq_dec : EqDecision meth.
Proof. solve_decision. Defined.

(** ** Outcomes with a log of applied deferred operations *)

(** [Applied verb subject] records one entry into
    [PipeVerb.__rrshift__(verb, subject)]. *)
Inductive event : Type := Applied (verb subject : value).

Definition traced (A : Type) : Type := (list event * result A)%type.

Definition quiet {A : Type} (r : result A) : traced A := ([], r).

Definition AttributeError (attr : string) : exn := Exn "AttributeError" attr.
Definition RecursionError : exn :=
  Exn "RecursionError" "maximum recursion depth exceeded".
Definition NotCallable : exn := Exn "TypeError" "object is not callable".
Definition Unsupported : exn :=
  Exn "TypeError" "unsupported operand type(s) for >>".
Definition ImmutableType : exn :=
  Exn "TypeError" "cannot set attribute of immutable type".
Definition NeedsArgument : exn :=
  Exn "TypeError" "requires at least 1 positional argument".
Definition NegativeShift : exn := Exn "ValueError" "negative shift count".

Section Semantics.

Context (P : program).

(** ** Attributes of function objects *)

Definition func_name (w : world) (f : pyfunc) : string :=
  match f with
  | FUser n => fn_name P n
  | FDispatch l =>
      match dispatchers w !! l with Some d => d_name d | None => "" end
  | FDecorated _ name _ _ => name
  end.

Definition func_doc (w : world) (f : pyfunc) : option string :=
  match f with
  | FUser n => fn_doc P n
  | FDispatch l =>
      match dispatchers w !! l with Some d => d_doc d | None => None end
  | FDecorated _ _ doc _ => doc
  end.

(** [getattr(f, 'register', None)]: the registry the capability is bound
    to.  Plain functions have none. *)
Definition func_register (f : pyfunc) : option nat :=
  match f with
  | FUser _ => None
  | FDispatch l => Some l
  | FDecorated _ _ _ register => register
  end.

(** ** Type-based dispatch *)

Fixpoint find_impl (registry : gmap string nat) (cs : list string)
    : option nat :=
  match cs with
  | [] => None
  | c :: rest =>
      match registry !! c with
      | Some n => Some n
      | None => find_impl registry rest
      end
  end.

(** Modelled from the spec: [functools.singledispatch] is an external
    collaborator of the repository (section 4.3).  The implementation
    registered for the most specific class along the MRO of the subject's
    class wins; unmatched classes fall through to the generic function. *)
Definition dispatch (w : world) (d : dispatcher) (cls : string) : nat :=
  default (d_default d) (find_impl (d_registry d) (mro w cls)).

(** ** Calling *)

(** [PipeVerb.__init__]: the function and the arguments are stored as
    they are. *)
Definition PipeVerb (func : value) (args : list value)
    (kwargs : list (string * value)) : value :=
  VVerb func args kwargs.

(** Calling a function object with positional and keyword arguments.  The
    closure [decorated] of [pipeverb] returns
    [PipeVerb(func, *args, **kwargs)]. *)
Definition call_func (w : world) (f : pyfunc) (args : list value)
    (kwargs : list (string * value)) : result value :=
  match f with
  | FUser n => fn_body P n args kwargs
  | FDispatch l =>
      match dispatchers w !! l with
      | None => Raise (Exn "ReferenceError" "no such dispatcher")
      | Some d =>
          match args with
          | [] => Raise NeedsArgument
          | subject :: _ =>
              fn_body P (dispatch w d (type_of subject)) args kwargs
          end
      end
  | FDecorated func _ _ _ => Ok (PipeVerb (VFun func) args kwargs)
  end.

(** Calling any value: only function objects are callable here. *)
Definition call_value (w : world) (v : value) (args : list value)
    (kwargs : list (string * value)) : result value :=
  match v with
  | VFun f => call_func w f args kwargs
  | _ => Raise NotCallable
  end.

(** [PipeVerb.__rrshift__]:
    [return self.pipe_func(input, *self.args, **self.kwargs)] *)
Definition PipeVerb_rrshift (w : world) (self input : value) : traced value :=
  ( [Applied self input],
    match self with
    | VVerb pipe_func args kwargs => call_value w pipe_func (input :: args) kwargs
    | _ => Raise (AttributeError "pipe_func")
    end ).

(** [int.__rshift__] and [int.__rrshift__] *)
Definition int_rshift (self other : value) : result value :=
  match self, other with
  | VInt a, VInt b =>
      if (b <? 0)%Z then Raise NegativeShift else Ok (VInt (Z.shiftr a b))
  | _, _ => Ok VNotImplemented
  end.

Definition int_rrshift (self other : value) : result value :=
  int_rshift other self.

(** Calling what a class dictionary binds a hook to, as a method of
    [self].  [on_wrapper] is what running the closure of
    [make_pipesource] on these arguments does. *)
Definition call_with (on_wrapper : traced value) (w : world) (m : meth)
    (self other : value) : traced value :=
  match m with
  | MFunc f => quiet (call_func w f [self; other] [])
  | MIntRshift => quiet (int_rshift self other)
  | MIntRRshift => quiet (int_rrshift self other)
  | MVerbRRshift => PipeVerb_rrshift w self other
  | MPipeOperator _ => on_wrapper
  end.

(** The closure [__rshift__] of [make_pipesource]:
    [if isinstance(other, PipeVerb): return other.__rrshift__(self)
     else: return self.__orig_rshift__(other)].
    When [__orig_rshift__] is itself such a closure, the call re-enters
    it with the same arguments and never returns: Python raises
    [RecursionError]. *)
Definition pipe_operator (w : world) (self other : value) : traced value :=
  if isinstance_PipeVerb other then PipeVerb_rrshift w other self
  else
    match type_lookup w (type_of self) "__orig_rshift__" with
    | None => quiet (Raise (AttributeError "__orig_rshift__"))
    | Some orig => call_with (quiet (Raise RecursionError)) w orig self other
    end.

Definition call_meth (w : world) (m : meth) (self other : value)
    : traced value :=
  call_with (pipe_operator w self other) w m self other.

(** ** The binary operator [>>] *)

(** [r], unless it is [NotImplemented]: then [k]. *)
Definition or_else (r k : traced value) : traced value :=
  match r with
  | (log, Ok VNotImplemented) => ((log ++ k.1)%list, k.2)
  | _ => r
  end.

Definition is_proper_subclass (w : world) (sub sup : string) : bool :=
  negb (String.eqb sub sup) && bool_decide (sup ∈ mro w sub).

(** The right operand's class provides its own reflected method. *)
Definition method_is_overloaded (w : world) (left right : string)
    (name : string) : bool :=
  match type_lookup w right name with
  | None => false
  | Some b =>
      match type_lookup w left name with
      | None => true
      | Some a => negb (bool_decide (a = b))
      end
  end.

(** [v >> x]: [type(v).__rshift__(v, x)], then, for operands of different
    classes, [type(x).__rrshift__(x, v)]; the reflected method goes first
    when the class of [x] is a proper subclass of the class of [v] that
    overrides it; a method that is missing or returns [NotImplemented]
    passes the turn; [TypeError] when nobody answers. *)
Definition rshift (w : world) (v x : value) : traced value :=
  let tv := type_of v in
  let tx := type_of x in
  let forward :=
    match type_lookup w tv "__rshift__" with
    | Some m => call_meth w m v x
    | None => quiet (Ok VNotImplemented)
    end in
  let reflected :=
    if String.eqb tv tx then quiet (Ok VNotImplemented)
    else
      match type_lookup w tx "__rrshift__" with
      | Some m => call_meth w m x v
      | None => quiet (Ok VNotImplemented)
      end in
  let answer :=
    if is_proper_subclass w tx tv && method_is_overloaded w tv tx "__rrshift__"
    then or_else reflected forward
    else or_else forward reflected in
  or_else answer (quiet (Raise Unsupported)).

(** ** Operations that change the store *)

(** A computation reads and updates the store and returns or raises. *)
Definition M (A : Type) : Type := world -> result A * world.

Definition ret {A : Type} (a : A) : M A := fun w => (Ok a, w).

Definition raise {A : Type} (e : exn) : M A := fun w => (Raise e, w).

Definition bind {A B : Type} (c : M A) (k : A -> M B) : M B :=
  fun w =>
    match c w with
    | (Ok a, w') => k a w'
    | (Raise e, w') => (Raise e, w')
    end.

Notation "x <- c1 ;; c2" := (bind c1 (fun x => c2))
  (at level 100, c1 at next level, right associativity).
Notation "c1 ;; c2" := (bind c1 (fun _ => c2))
  (at level 100, right associativity).

Definition state_after {A : Type} (c : M A) (w : world) : world := (c w).2.
Definition outcome {A : Type} (c : M A) (w : world) : result A := (c w).1.

(** [hasattr(cls, attr)] *)
Definition hasattr (w : world) (cls attr : string) : bool :=
  match type_lookup w cls attr with Some _ => true | None => false end.

(** [getattr(cls.__rshift__, 'pipeoperator', False)]: only the closures of
    [make_pipesource] carry the attribute. *)
Definition getattr_pipeoperator (w : world) (cls : string) : bool :=
  match type_lookup w cls "__rshift__" with
  | Some (MPipeOperator marker) => marker
  | _ => false
  end.

(** The store after the own dictionary of [cls] went through [g]. *)
Definition rebind (cls : string) (g : gmap string meth -> gmap string meth)
    (w : world) : world :=
  set_classes (alter (set_dict g) cls) w.

(** Reading [cls.attr] *)
Definition type_getattr (cls attr : string) : M meth := fun w =>
  match type_lookup w cls attr with
  | Some m => (Ok m, w)
  | None => (Raise (AttributeError attr), w)
  end.

(** [cls.attr = m]: binds the name in the class's own dictionary.  The
    classes of the fixed table are never rebound: for the builtin types
    Python refuses with [TypeError], and [make_pipesource] does not reach
    an assignment for [PipeVerb] or [object], which have no
    [__rshift__]. *)
Definition type_setattr (cls attr : string) (m : meth) : M unit := fun w =>
  if is_builtin cls then (Raise ImmutableType, w)
  else (Ok tt, rebind cls <[attr := m]> w).

Definition mark (m : meth) : meth :=
  match m with
  | MPipeOperator _ => MPipeOperator true
  | _ => m
  end.

(** [cls.__rshift__.pipeoperator = True], on the closure that was just
    bound in the class's own dictionary. *)
Definition set_pipeoperator (cls : string) : M unit := fun w =>
  (Ok tt, rebind cls (alter mark "__rshift__") w).

(** [make_pipesource(cls)] *)
Definition make_pipesource (cls : string) : M unit := fun w =>
  if hasattr w cls "__rshift__" && negb (getattr_pipeoperator w cls) then
    (orig <- type_getattr cls "__rshift__" ;;
     type_setattr cls "__orig_rshift__" orig ;;
     type_setattr cls "__rshift__" (MPipeOperator false) ;;
     set_pipeoperator cls) w
  else (Ok tt, w).

(** Modelled from the spec: [singledispatch] (section 4.3) wraps a generic
    function: it creates an empty registry with that function as the
    default and keeps the generic function's name and documentation. *)
Definition singledispatch (func : nat) : M pyfunc := fun w =>
  ( Ok (FDispatch (length (dispatchers w))),
    set_dispatchers
      (fun ds => ds ++ [ {| d_name := fn_name P func; d_doc := fn_doc P func;
                            d_default := func; d_registry := ∅ |} ])%list w ).

(** Modelled from the spec: the registration interface of a
    dispatch-wrapped function (section 4.3) associates an implementation
    with a class in the registry at location [l]; a later registration
    for the same class replaces the earlier one.  It returns the
    implementation. *)
Definition register (l : nat) (cls : string) (impl : nat) : M pyfunc := fun w =>
  (Ok (FUser impl), set_dispatchers (alter (set_registry <[cls := impl]>) l) w).

(** [f.register(cls, impl)] *)
Definition call_register (f : pyfunc) (cls : string) (impl : nat) : M pyfunc :=
  match func_register f with
  | Some l => register l cls impl
  | None => raise (AttributeError "register")
  end.

(** [functools.wraps(wrapped)]: the name, the documentation and the
    attribute dictionary of [wrapped] are copied onto the closure. *)
Definition wraps (w : world) (wrapped : pyfunc) (closure_over : pyfunc) : pyfunc :=
  FDecorated closure_over (func_name w wrapped) (func_doc w wrapped)
             (func_register wrapped).

(** [f.register = r] *)
Definition set_register (f : pyfunc) (r : nat) : pyfunc :=
  match f with
  | FDecorated inner name doc _ => FDecorated inner name doc (Some r)
  | _ => f
  end.

(** [pipeverb(func)] *)
Definition pipeverb (func : pyfunc) : M pyfunc := fun w =>
  let decorated := wraps w func func in
  match func_register func with
  | Some r => (Ok (set_register decorated r), w)
  | None => (Ok decorated, w)
  end.



(** [subject >> factory(args, kwargs)]: the verb factory is called first,
    then the operator is evaluated. *)
Definition pipe (w : world) (subject : value) (factory : pyfunc)
    (args : list value) (kwargs : list (string * value)) : traced value :=
  match call_func w factory args kwargs with
  | Ok verb => rshift w subject verb
  | Raise e => quiet (Raise e)
  end.

End Semantics.

(** ** Pipe sources and the invariant of the store *)

(** A class whose instances can stand on the left of a deferred
    operation: it is not [PipeVerb] itself, and its operator is absent,
    is the closure of [make_pipesource], or is the shift of [int] (which
    declines every operand that is not an integer). *)
Definition pipe_source (w : world) (c : string) : bool :=
  negb (String.eqb c "PipeVerb") &&
  match type_lookup w c "__rshift__" with
  | None => true
  | Some (MPipeOperator _) => true
  | Some MIntRshift => true
  | Some _ => false
  end.

(** The closures of [make_pipesource] are bound under the name
    [__rshift__] only, and carry the marker. *)
Definition closure_ok (attr : string) (m : meth) : bool :=
  match m with
  | MPipeOperator marker => String.eqb attr "__rshift__" && marker
  | _ => true
  end.

Definition closures_in_place (d : gmap string meth) : Prop :=
  map_Forall (fun attr m => closure_ok attr m = true) d.

(** The invariant that [make_pipesource] maintains on the user classes. *)
Definition well_formed (w : world) : bool :=
  bool_decide (map_Forall (fun _ r => closures_in_place (c_dict r)) (classes w)).

(** The dictionary of a class after the three assignments of
    [make_pipesource], [orig] being the operator found before them. *)
Definition enabled_dict (orig : meth) (d : gmap string meth)
    : gmap string meth :=
  alter mark "__rshift__"
    (<["__rshift__" := MPipeOperator false]> (<["__orig_rshift__" := orig]> d)).

(** A sequence of registrations [(l, cls, impl)], in order. *)
Fixpoint register_all (regs : list (nat * string * nat)) (w : world)
    : world :=
  match regs with
  | [] => w
  | (l, cls, impl) :: rest =>
      register_all rest (state_after (register l cls impl) w)
  end.

(** ** Pipelines and sequences of enablements *)







(** ** The scenarios of the test suite *)

Module Scenario.

(** Binding of a parameter: positional if given, else by keyword, else
    the default. *)
Definition param (i : nat) (name : string) (dflt : value)
    (args : list value) (kwargs : list (string * value)) : value :=
  match args !! i with
  | Some v => v
  | None => default dflt (assoc name kwargs)
  end.

Definition NotImplementedError : exn :=
  Exn "NotImplementedError" "append is not implemented for data of this type".

(** The functions defined in [tests/test_pipes.py]. *)
Definition append_ : nat := 0.          (* generic, raises *)
Definition append_list : nat := 1.      (* input + [x] *)
Definition Tester_rshift : nat := 2.    (* return "TESTER" *)
Definition test_verb : nat := 3.        (* return "VERB" *)
Definition append2_list : nat := 5.     (* input + [x, y] *)
Definition identity : nat := 6.         (* lambda x: x *)
Definition declining : nat := 7.        (* returns NotImplemented *)

Definition bodies (n : nat) (args : list value)
    (kwargs : list (string * value)) : result value :=
  match n with
  | 0 => Raise NotImplementedError
  | 1 =>
      match args with
      | VList items :: _ =>
          Ok (VList (items ++ [param 1 "x" (VInt 1) args kwargs]))
      | _ => Raise (Exn "TypeError" "unsupported operand type(s) for +")
      end
  | 2 => Ok (VStr "TESTER")
  | 3 => Ok (VStr "VERB")
  | 4 => Raise NotImplementedError
  | 5 =>
      match args with
      | VList items :: _ =>
          Ok (VList (items ++ [param 1 "x" (VInt 1) args kwargs;
                               param 2 "y" (VInt 2) args kwargs]))
      | _ => Raise (Exn "TypeError" "unsupported operand type(s) for +")
      end
  | 6 => match args with v :: _ => Ok v | [] => Raise NeedsArgument end
  | _ => Ok VNotImplemented
  end.

Definition names (n : nat) : string :=
  match n with
  | 0 => "append_" | 1 => "append_list" | 2 => "__rshift__"
  | 3 => "test_verb" | 4 => "append" | 5 => "append_list"
  | _ => "<lambda>"
  end.

Definition docs (n : nat) : option string :=
  match n with
  | 0 => Some "Docstring generic"
  | 1 => Some "Docstring list"
  | 2 => Some "ORIG RSHIFT"
  | 4 => Some "Docstring"
  | _ => None
  end.

Definition tests : program :=
  {| fn_name := names; fn_doc := docs; fn_body := bodies |}.

(** [class Tester(object)] with its own [__rshift__]. *)
Definition Tester : class_rec :=
  {| c_supers := []; c_dict := <["__rshift__" := MFunc (FUser Tester_rshift)]> ∅ |}.

(** A class without any operator. *)
Definition Plain : class_rec := {| c_supers := []; c_dict := ∅ |}.

(** A class whose [__rshift__] declines every operand. *)
Definition Shy : class_rec :=
  {| c_supers := []; c_dict := <["__rshift__" := MFunc (FUser declining)]> ∅ |}.

Definition start : world :=
  {| classes := <["Tester" := Tester]> (<["Plain" := Plain]> (<["Shy" := Shy]> ∅));
     dispatchers := [] |}.

(** [test_pipeverb]: [append_ = singledispatch(...)], [append =
    pipeverb(append_)], then [append.register(list)]. *)
Definition after_test_pipeverb : result pyfunc * world :=
  bind (singledispatch tests append_) (fun dispatching =>
  bind (pipeverb tests dispatching) (fun append =>
  bind (call_register append "list" append_list) (fun _ =>
  ret append))) start.

Definition append_dispatching : pyfunc := FDispatch 0.

(** [append = pipeverb(append_)] *)
Definition append : pyfunc :=
  FDecorated append_dispatching "append_" (Some "Docstring generic") (Some 0).

(** The store after [test_pipeverb]'s definitions. *)
Definition registered : world := after_test_pipeverb.2.

(** [pipeverb(f)] for a plain function [f]. *)
Definition verb_of (n : nat) : pyfunc :=
  FDecorated (FUser n) (names n) (docs n) None.

(** The store after [make_pipesource(Tester)]. *)
Definition enabled : world :=
  state_after (make_pipesource "Tester") registered.




End Scenario.

(** * Properties *)

Section Facts.

Context (P : program).

(** ** The fixed classes *)

Lemma PipeVerb_has_rrshift (w : world) :
  type_lookup w "PipeVerb" "__rrshift__" = Some MVerbRRshift.
Proof. reflexivity. Qed.

Lemma PipeVerb_has_no_rshift (w : world) :
  type_lookup w "PipeVerb" "__rshift__" = None.
Proof. reflexivity. Qed.

Lemma object_has_no_rshift (w : world) :
  type_lookup w "object" "__rshift__" = None.
Proof. reflexivity. Qed.

Lemma object_has_no_rrshift (w : world) :
  type_lookup w "object" "__rrshift__" = None.
Proof. reflexivity. Qed.

Lemma mro_PipeVerb (w : world) : mro w "PipeVerb" = ["PipeVerb"; "object"].
Proof. reflexivity. Qed.

(** [PipeVerb] is a proper subclass of [object] only. *)
Lemma PipeVerb_below (w : world) (c : string) :
  is_proper_subclass w "PipeVerb" c = true -> c = "object".
Proof.
  unfold is_proper_subclass. rewrite mro_PipeVerb.
  intros [Hne Hin]%andb_true_iff.
  apply bool_decide_eq_true in Hin.
  apply negb_true_iff, String.eqb_neq in Hne.
  apply elem_of_cons in Hin as [->|Hin]; [done|].
  by apply list_elem_of_singleton in Hin.
Qed.

(** ** The operator protocol *)

Lemma or_else_answer (log : list event) (r : result value) (k : traced value) :
  r ≠ Ok VNotImplemented -> or_else (log, r) k = (log, r).
Proof.
  intros Hr. unfold or_else.
  destruct r as [[]|]; try reflexivity. by destruct Hr.
Qed.

Lemma or_else_decline (k : traced value) :
  or_else (quiet (Ok VNotImplemented)) k = k.
Proof. by destruct k. Qed.

Lemma int_rshift_declines_verb (self pf : value) (args : list value)
    (kwargs : list (string * value)) :
  int_rshift self (VVerb pf args kwargs) = Ok VNotImplemented.
Proof. by destruct self. Qed.

(** What the reflected hook of a deferred operation does. *)
Lemma reflected_hook (w : world) (subject pf : value) (args : list value)
    (kwargs : list (string * value)) :
  call_meth P w MVerbRRshift (VVerb pf args kwargs) subject
  = ([Applied (VVerb pf args kwargs) subject],
     call_value P w pf (subject :: args) kwargs).
Proof. reflexivity. Qed.

(** The closure of [make_pipesource] hands a deferred operation the
    subject. *)
Lemma pipe_operator_verb (w : world) (subject pf : value) (args : list value)
    (kwargs : list (string * value)) (marker : bool) :
  call_meth P w (MPipeOperator marker) subject (VVerb pf args kwargs)
  = ([Applied (VVerb pf args kwargs) subject],
     call_value P w pf (subject :: args) kwargs).
Proof. reflexivity. Qed.

(** On a pipe source, [>>] applies the deferred operation once and
    answers with its outcome, unless that outcome is [NotImplemented]. *)
Lemma rshift_applies (w : world) (subject pf : value) (args : list value)
    (kwargs : list (string * value)) :
  pipe_source w (type_of subject) = true ->
  call_value P w pf (subject :: args) kwargs ≠ Ok VNotImplemented ->
  rshift P w subject (VVerb pf args kwargs)
  = ([Applied (VVerb pf args kwargs) subject],
     call_value P w pf (subject :: args) kwargs).
Proof.
  intros [Hc Hop]%andb_true_iff Hr.
  apply negb_true_iff in Hc.
  unfold rshift. cbn [type_of]. rewrite Hc, PipeVerb_has_rrshift, reflected_hook.
  destruct (type_lookup w (type_of subject) "__rshift__") as [[]|];
    try discriminate Hop.
  - rewrite pipe_operator_verb.
    destruct (_ && _); by rewrite !or_else_answer.
  - unfold call_meth, call_with. rewrite int_rshift_declines_verb.
    destruct (_ && _);
      rewrite ?or_else_decline, ?or_else_answer by done;
      rewrite ?or_else_decline; by rewrite ?or_else_answer.
  - destruct (_ && _);
      rewrite ?or_else_decline, ?or_else_answer by done;
      rewrite ?or_else_decline; by rewrite ?or_else_answer.
Qed.

(** On a class without [__rshift__] other than [PipeVerb], [>>] applies
    the deferred operation exactly once, whatever it answers. *)
Lemma rshift_without_operator (w : world) (subject pf : value)
    (args : list value) (kwargs : list (string * value)) :
  type_lookup w (type_of subject) "__rshift__" = None ->
  type_of subject ≠ "PipeVerb" ->
  let verb := VVerb pf args kwargs in
  let r := call_value P w pf (subject :: args) kwargs in
  rshift P w subject verb
  = ([Applied verb subject],
     match r with Ok VNotImplemented => Raise Unsupported | _ => r end).
Proof.
  intros Hop Hc%String.eqb_neq verb r. subst verb r.
  unfold rshift. cbn [type_of]. rewrite Hc, Hop, PipeVerb_has_rrshift.
  rewrite reflected_hook.
  destruct (_ && _); rewrite ?or_else_decline;
    destruct (call_value _ _ _ _ _) as [[]|]; reflexivity.
Qed.





(** C10, amended.  For every class without [__rshift__],
    [make_pipesource] returns without touching the store; and for every
    such class other than [PipeVerb] itself, [instance >>
    deferred_operation] applies the deferred operation to the instance
    through the reflected hook. *)
Theorem class_without_operator (w : world) (cls : string)
    (instance pf : value) (args : list value) (kwargs : list (string * value)) :
  hasattr w cls "__rshift__" = false ->
  type_of instance = cls ->
  make_pipesource cls w = (Ok tt, w)
  /\ (cls ≠ "PipeVerb" ->
      let w' := state_after (make_pipesource cls) w in
      let verb := VVerb pf args kwargs in
      let applied := call_value P w' pf (instance :: args) kwargs in
      (rshift P w' instance verb).1 = [Applied verb instance]
      /\ (applied ≠ Ok VNotImplemented ->
          (rshift P w' instance verb).2 = applied)).
Proof.
  intros Hno Hty.
  assert (Hskip : make_pipesource cls w = (Ok tt, w)).
  { unfold make_pipesource. by rewrite Hno. }
  split; [done|].
  intros Hne. unfold state_after. rewrite Hskip. cbn [snd].
  unfold hasattr in Hno.
  destruct (type_lookup w cls "__rshift__") eqn:Hop; [discriminate|].
  subst cls. rewrite rshift_without_operator by done.
  split; [done|]. intros Happ. cbn [snd].
  destruct (call_value _ _ _ _ _) as [[]|]; try reflexivity. by destruct Happ.
Qed.

(** ** Rebinding attributes of a class *)

Section Rebinding.

Context (w : world) (cls : string) (g : gmap string meth -> gmap string meth).

Lemma rebind_dispatchers : dispatchers (rebind cls g w) = dispatchers w.
Proof. reflexivity. Qed.

Lemma rebind_mro (c : string) : mro (rebind cls g w) c = mro w c.
Proof.
  unfold mro, get_class. destruct (builtin_class c); [done|].
  cbn. rewrite lookup_alter.
  case_decide; subst; by destruct (classes w !! c).
Qed.

Lemma rebind_class_dict_other (c : string) :
  c ≠ cls -> class_dict (rebind cls g w) c = class_dict w c.
Proof.
  intros Hne. unfold class_dict, get_class.
  destruct (builtin_class c); [done|].
  cbn. by rewrite lookup_alter_ne.
Qed.

Lemma rebind_class_dict_builtin (c : string) :
  is_builtin c = true -> class_dict (rebind cls g w) c = class_dict w c.
Proof.
  unfold is_builtin, class_dict, get_class.
  by destruct (builtin_class c).
Qed.

Lemma rebind_class_dict_same (r : class_rec) :
  is_builtin cls = false -> classes w !! cls = Some r ->
  class_dict (rebind cls g w) cls = g (c_dict r) /\ class_dict w cls = c_dict r.
Proof.
  unfold is_builtin, class_dict, get_class.
  destruct (builtin_class cls); [done|]. intros _ Hr.
  cbn. by rewrite lookup_alter_eq, Hr.
Qed.

(** An attribute that [g] does not touch is found where it was. *)
Lemma rebind_lookup_frame (attr : string) :
  (forall d, g d !! attr = d !! attr) ->
  forall c, type_lookup (rebind cls g w) c attr = type_lookup w c attr.
Proof.
  intros Hg c. unfold type_lookup. rewrite rebind_mro.
  induction (mro w c) as [|c' cs IH]; [done|].
  cbn. rewrite IH.
  destruct (decide (c' = cls)) as [->|Hne];
    [|by rewrite rebind_class_dict_other].
  destruct (is_builtin cls) eqn:Hb; [by rewrite rebind_class_dict_builtin|].
  unfold class_dict, get_class. unfold is_builtin in Hb.
  destruct (builtin_class cls); [done|].
  cbn. rewrite lookup_alter_eq.
  destruct (classes w !! cls); cbn; [by rewrite Hg|done].
Qed.

(** An attribute that [g] binds is found in the class itself. *)
Lemma rebind_lookup_bound (attr : string) (m : meth) (r : class_rec) :
  is_builtin cls = false -> classes w !! cls = Some r ->
  g (c_dict r) !! attr = Some m ->
  type_lookup (rebind cls g w) cls attr = Some m.
Proof.
  intros Hb Hr Hm.
  destruct (rebind_class_dict_same r Hb Hr) as [Hd _].
  unfold type_lookup, mro. cbn. by rewrite Hd, Hm.
Qed.

Lemma rebind_call_func (f : pyfunc) (args : list value)
    (kwargs : list (string * value)) :
  call_func P (rebind cls g w) f args kwargs = call_func P w f args kwargs.
Proof.
  destruct f; try reflexivity.
  unfold call_func. change (dispatchers (rebind cls g w)) with (dispatchers w).
  destruct (dispatchers w !! l); [|done].
  destruct args; [done|]. unfold dispatch. by rewrite rebind_mro.
Qed.

Lemma rebind_call_with (on_wrapper : traced value) (m : meth)
    (self other : value) :
  call_with P on_wrapper (rebind cls g w) m self other
  = call_with P on_wrapper w m self other.
Proof.
  destruct m; try reflexivity.
  - unfold call_with. by rewrite rebind_call_func.
  - unfold call_with, PipeVerb_rrshift. f_equal.
    destruct self as [| | | | | | |pipe_func args kwargs]; try reflexivity.
    destruct pipe_func; try reflexivity. apply rebind_call_func.
Qed.

End Rebinding.

(** A class that is not in the fixed table and has an attribute exists
    in the store. *)
Lemma class_exists (w : world) (cls attr : string) (m : meth) :
  is_builtin cls = false -> type_lookup w cls attr = Some m ->
  exists r, classes w !! cls = Some r.
Proof.
  intros Hb Hl. destruct (classes w !! cls) eqn:Hr; [by eauto|].
  exfalso. revert Hl. unfold is_builtin in Hb.
  unfold type_lookup, mro, get_class.
  destruct (builtin_class cls) eqn:Hbc; [done|].
  rewrite Hr. cbn. unfold class_dict, get_class. rewrite Hbc, Hr.
  cbn. by rewrite !lookup_empty.
Qed.

Lemma enabled_dict_rshift (orig : meth) (d : gmap string meth) :
  enabled_dict orig d !! "__rshift__" = Some (MPipeOperator true).
Proof.
  unfold enabled_dict. by rewrite lookup_alter_eq, lookup_insert_eq.
Qed.

Lemma enabled_dict_orig (orig : meth) (d : gmap string meth) :
  enabled_dict orig d !! "__orig_rshift__" = Some orig.
Proof.
  unfold enabled_dict.
  rewrite lookup_alter_ne by done.
  rewrite lookup_insert_ne by done. by rewrite lookup_insert_eq.
Qed.

Lemma enabled_dict_other (orig : meth) (d : gmap string meth) (attr : string) :
  attr ≠ "__rshift__" -> attr ≠ "__orig_rshift__" ->
  enabled_dict orig d !! attr = d !! attr.
Proof.
  intros H1 H2. unfold enabled_dict.
  rewrite lookup_alter_ne by done.
  rewrite lookup_insert_ne by done. by rewrite lookup_insert_ne.
Qed.

(** ** What [make_pipesource] does to the store *)

Lemma make_pipesource_skips (w : world) (cls : string) :
  hasattr w cls "__rshift__" && negb (getattr_pipeoperator w cls) = false ->
  make_pipesource cls w = (Ok tt, w).
Proof. intros H. unfold make_pipesource. by rewrite H. Qed.

Lemma make_pipesource_refused (w : world) (cls : string) :
  hasattr w cls "__rshift__" && negb (getattr_pipeoperator w cls) = true ->
  is_builtin cls = true ->
  make_pipesource cls w = (Raise ImmutableType, w).
Proof.
  intros H Hb. unfold make_pipesource. rewrite H.
  apply andb_true_iff in H as [Hh _]. unfold hasattr in Hh.
  unfold bind, type_getattr.
  destruct (type_lookup w cls "__rshift__"); [|done].
  unfold type_setattr. by rewrite Hb.
Qed.

Lemma make_pipesource_patches (w : world) (cls : string) (orig : meth) :
  type_lookup w cls "__rshift__" = Some orig ->
  getattr_pipeoperator w cls = false ->
  is_builtin cls = false ->
  make_pipesource cls w
  = (Ok tt, rebind cls (enabled_dict orig) w).
Proof.
  intros Hop Hm Hb. unfold make_pipesource, hasattr. rewrite Hop, Hm.
  cbn [andb negb]. unfold bind, type_getattr, type_setattr, set_pipeoperator.
  rewrite Hop, Hb. f_equal.
  unfold rebind, set_classes. cbn. f_equal.
  rewrite !alter_alter_eq. apply alter_ext. by intros [].
Qed.

(** ** The invariant *)




Lemma call_with_plain (w : world) (m : meth) (self other : value)
    (on_wrapper on_wrapper' : traced value) :
  (forall marker, m ≠ MPipeOperator marker) ->
  call_with P on_wrapper w m self other
  = call_with P on_wrapper' w m self other.
Proof. intros Hm. destruct m; try reflexivity. by destruct (Hm pipeoperator). Qed.


(** ** Enablement *)


(** C2.  [make_pipesource] is idempotent: a second call on the class
    changes nothing; the saved original and the installed operator are
    those of the first call, and on a user class with an operator of its
    own the saved original is that operator, not the installed closure. *)
Theorem make_pipesource_idempotent (w : world) (cls : string) (orig : meth) :
  type_lookup w cls "__rshift__" = Some orig ->
  let w1 := state_after (make_pipesource cls) w in
  let w2 := state_after (make_pipesource cls) w1 in
  w2 = w1
  /\ type_lookup w2 cls "__orig_rshift__" = type_lookup w1 cls "__orig_rshift__"
  /\ type_lookup w2 cls "__rshift__" = type_lookup w1 cls "__rshift__"
  /\ (is_builtin cls = false -> getattr_pipeoperator w cls = false ->
      type_lookup w2 cls "__orig_rshift__" = Some orig
      /\ type_lookup w2 cls "__rshift__" = Some (MPipeOperator true)
      /\ outcome (make_pipesource cls) w1 = Ok tt).
Proof.
  intros Horig w1 w2.
  assert (Hsame : w2 = w1).
  { unfold w2, w1, state_after.
    destruct (hasattr w cls "__rshift__" && negb (getattr_pipeoperator w cls))
      eqn:Hgo.
    2: { rewrite (make_pipesource_skips w) by done. cbn [snd].
         by rewrite (make_pipesource_skips w). }
    destruct (is_builtin cls) eqn:Hb.
    { rewrite (make_pipesource_refused w) by done. cbn [snd].
      by rewrite (make_pipesource_refused w). }
    apply andb_true_iff in Hgo as [_ Hm]. apply negb_true_iff in Hm.
    rewrite (make_pipesource_patches w cls orig) by done. cbn [snd].
    destruct (class_exists w cls _ _ Hb Horig) as [r Hr].
    rewrite make_pipesource_skips; [done|].
    unfold getattr_pipeoperator.
    rewrite (rebind_lookup_bound w cls _ "__rshift__" (MPipeOperator true) r Hb Hr)
      by apply enabled_dict_rshift.
    apply andb_false_r. }
  rewrite Hsame. repeat split; try reflexivity.
  - unfold w1, state_after.
    rewrite (make_pipesource_patches w cls orig) by done. cbn [snd].
    destruct (class_exists w cls _ _ H Horig) as [r Hr].
    apply (rebind_lookup_bound w cls _ _ _ r H Hr), enabled_dict_orig.
  - unfold w1, state_after.
    rewrite (make_pipesource_patches w cls orig) by done. cbn [snd].
    destruct (class_exists w cls _ _ H Horig) as [r Hr].
    apply (rebind_lookup_bound w cls _ _ _ r H Hr), enabled_dict_rshift.
  - unfold w1, state_after, outcome.
    rewrite (make_pipesource_patches w cls orig) by done. cbn [snd].
    destruct (class_exists w cls _ _ H Horig) as [r Hr].
    rewrite make_pipesource_skips; [done|].
    unfold getattr_pipeoperator.
    rewrite (rebind_lookup_bound w cls _ "__rshift__" (MPipeOperator true) r H Hr)
      by apply enabled_dict_rshift.
    apply andb_false_r.
Qed.

(** ** Registration and metadata *)

Lemma register_lookup (w : world) (l l' : nat) (cls : string) (impl : nat) :
  dispatchers (state_after (register l cls impl) w) !! l'
  = (if decide (l = l') then set_registry <[cls := impl]> else id)
      <$> dispatchers w !! l'.
Proof.
  unfold state_after, register. cbn. rewrite list_lookup_alter.
  case_decide; subst; [done|]. by destruct (dispatchers w !! l').
Qed.

(** A registration changes neither names nor documentation. *)
Lemma register_metadata (w : world) (l : nat) (cls : string) (impl : nat)
    (f : pyfunc) :
  func_name P (state_after (register l cls impl) w) f = func_name P w f
  /\ func_doc P (state_after (register l cls impl) w) f = func_doc P w f.
Proof.
  destruct f as [n|l'|]; try done.
  unfold func_name, func_doc. rewrite register_lookup.
  destruct (dispatchers w !! l'); [|done].
  cbn. by case_decide.
Qed.

Lemma register_all_metadata (regs : list (nat * string * nat)) (w : world)
    (f : pyfunc) :
  func_name P (register_all regs w) f = func_name P w f
  /\ func_doc P (register_all regs w) f = func_doc P w f.
Proof.
  revert w. induction regs as [|[[l cls] impl] regs IH]; intros w; [done|].
  cbn [register_all]. destruct (IH (state_after (register l cls impl) w)) as [-> ->].
  apply register_metadata.
Qed.

Lemma singledispatch_allocates (w : world) (generic : nat) :
  let l := length (dispatchers w) in
  let w1 := state_after (singledispatch P generic) w in
  singledispatch P generic w = (Ok (FDispatch l), w1)
  /\ classes w1 = classes w
  /\ dispatchers w1 !! l
     = Some {| d_name := fn_name P generic; d_doc := fn_doc P generic;
               d_default := generic; d_registry := ∅ |}.
Proof.
  cbn. repeat split. by rewrite list_lookup_middle.
Qed.

Lemma pipeverb_value (w : world) (f : pyfunc) :
  pipeverb P f w
  = (Ok (FDecorated f (func_name P w f) (func_doc P w f) (func_register f)), w).
Proof. unfold pipeverb, wraps. by destruct (func_register f). Qed.

(** C5.  The verb factory returned by [pipeverb(f)] has the name and the
    documentation of [f]; a dispatch-wrapped function has the
    documentation of its generic implementation, and so has its verb
    factory, before and after any sequence of registrations. *)
Theorem metadata_preserved (w : world) (f : pyfunc) (generic : nat)
    (regs : list (nat * string * nat)) :
  (exists factory,
      outcome (pipeverb P f) w = Ok factory
      /\ func_name P w factory = func_name P w f
      /\ func_doc P w factory = func_doc P w f)
  /\ (exists dispatching factory,
        let w1 := state_after (singledispatch P generic) w in
        outcome (singledispatch P generic) w = Ok dispatching
        /\ outcome (pipeverb P dispatching) w1 = Ok factory
        /\ func_doc P w1 dispatching = fn_doc P generic
        /\ func_doc P (register_all regs w1) dispatching = fn_doc P generic
        /\ func_doc P w1 factory = fn_doc P generic
        /\ func_doc P (register_all regs w1) factory = fn_doc P generic
        /\ func_name P (register_all regs w1) factory = fn_name P generic).
Proof.
  split.
  - eexists. unfold outcome. rewrite pipeverb_value. by cbn.
  - destruct (singledispatch_allocates w generic) as (Hs & _ & Hl).
    eexists _, _. cbv zeta. unfold outcome.
    rewrite Hs, pipeverb_value. cbn [fst].
    assert (Hdoc : func_doc P (state_after (singledispatch P generic) w)
                     (FDispatch (length (dispatchers w))) = fn_doc P generic).
    { unfold func_doc. by rewrite Hl. }
    assert (Hname : func_name P (state_after (singledispatch P generic) w)
                     (FDispatch (length (dispatchers w))) = fn_name P generic).
    { unfold func_name. by rewrite Hl. }
    repeat split; try done.
    + destruct (register_all_metadata regs
                 (state_after (singledispatch P generic) w)
                 (FDispatch (length (dispatchers w)))) as [_ ->]. done.
Qed.

(** C6.  For every function [f] with a [register] capability, the verb
    factory [pipeverb(f)] exposes the same capability; a registration
    through the factory and one through [f] leave the same store, and
    decorating before or after the registration gives verb factories
    with the same outcome for every piped subject. *)
Theorem register_reexposed (w : world) (f factory : pyfunc) (l : nat)
    (cls : string) (impl : nat) :
  func_register f = Some l ->
  outcome (pipeverb P f) w = Ok factory ->
  func_register factory = func_register f
  /\ call_register factory cls impl w = call_register f cls impl w
  /\ call_register f cls impl w = register l cls impl w
  /\ (let w' := state_after (call_register f cls impl) w in
      outcome (pipeverb P f) w' = Ok factory
      /\ forall factory' subject args kwargs,
          outcome (pipeverb P f) w' = Ok factory' ->
          pipe P (state_after (call_register factory cls impl) w)
               subject factory args kwargs
          = pipe P w' subject factory' args kwargs).
Proof.
  intros Hreg. unfold outcome. rewrite pipeverb_value. cbn [fst].
  intros [= <-].
  assert (Hcap : func_register
                   (FDecorated f (func_name P w f) (func_doc P w f)
                      (func_register f)) = func_register f) by done.
  assert (Hcall : forall w0,
            call_register (FDecorated f (func_name P w f) (func_doc P w f)
                             (func_register f)) cls impl w0
            = call_register f cls impl w0).
  { intros w0. unfold call_register. by rewrite Hcap. }
  assert (Hafter : (pipeverb P f (state_after (call_register f cls impl) w)).1
                   = Ok (FDecorated f (func_name P w f) (func_doc P w f)
                           (func_register f))).
  { rewrite pipeverb_value. cbn [fst]. unfold call_register. rewrite Hreg.
    by destruct (register_metadata w l cls impl f) as [-> ->]. }
  repeat split; try done.
  - unfold call_register. by rewrite Hreg.
  - intros factory' subject args kwargs. rewrite Hafter. intros [= <-].
    unfold state_after. by rewrite Hcall.
Qed.


(** C8.  Registering implementations for two distinct classes in either
    order leaves the same registry: every subject, of class [A], of class
    [B] or of any other class, is dispatched alike, called directly or
    piped; a subject of class [A] gets [implA] and one of class [B] gets
    [implB]. *)
Theorem registration_order_independent (w : world) (l : nat) (A B : string)
    (implA implB : nat) :
  A ≠ B ->
  let wAB := state_after (register l B implB)
               (state_after (register l A implA) w) in
  let wBA := state_after (register l A implA)
               (state_after (register l B implB) w) in
  wAB = wBA
  /\ (forall f subject args kwargs,
        call_func P wAB f (subject :: args) kwargs
        = call_func P wBA f (subject :: args) kwargs)
  /\ (forall subject verb, rshift P wAB subject verb = rshift P wBA subject verb)
  /\ (l < length (dispatchers w) ->
      forall subject args kwargs,
        (type_of subject = A ->
         call_func P wAB (FDispatch l) (subject :: args) kwargs
         = fn_body P implA (subject :: args) kwargs)
        /\ (type_of subject = B ->
            call_func P wAB (FDispatch l) (subject :: args) kwargs
            = fn_body P implB (subject :: args) kwargs)).
Proof.
  intros Hne wAB wBA.
  assert (Hsame : wAB = wBA).
  { unfold wAB, wBA, state_after, register, set_dispatchers. cbn. f_equal.
    rewrite !list_alter_alter_eq. apply list_alter_ext; [|done].
    intros d _. unfold set_registry. cbn. f_equal.
    by apply insert_insert_ne. }
  split; [done|]. rewrite <- Hsame.
  split; [done|]. split; [done|].
  intros Hl subject args kwargs.
  apply lookup_lt_is_Some_2 in Hl as [d Hd].
  assert (Hlook : dispatchers wAB !! l
                  = Some (set_registry <[B := implB]>
                            (set_registry <[A := implA]> d))).
  { unfold wAB. rewrite !register_lookup, Hd. cbn.
    by rewrite !decide_True. }
  unfold call_func. rewrite Hlook. unfold dispatch, mro. cbn [find_impl d_registry set_registry].
  split; intros ->.
  - rewrite lookup_insert_ne by done. by rewrite lookup_insert_eq.
  - by rewrite lookup_insert_eq.
Qed.

End Facts.

(** * The properties on the scenarios of the test suite *)

Import Scenario.

Example test_pipeverb_defines :
  after_test_pipeverb = (Ok append, registered).
Proof. vm_compute. reflexivity. Qed.

Example test_chaining :
  match rshift tests registered (VList [VInt 1])
          (PipeVerb (VFun (FUser append2_list)) [VInt 2] []) with
  | (_, Ok running) =>
      rshift tests registered running
        (PipeVerb (VFun (FUser append2_list)) [VInt 3; VInt 3] [])
  | failed => failed
  end
  = ([Applied (PipeVerb (VFun (FUser append2_list)) [VInt 3; VInt 3] [])
        (VList [VInt 1; VInt 2; VInt 2])],
     Ok (VList [VInt 1; VInt 2; VInt 2; VInt 3; VInt 3])).
Proof. vm_compute. reflexivity. Qed.

Example test_make_pipesource_then_verb :
  pipe tests enabled (VObj "Tester" []) (verb_of test_verb) [] []
  = ([Applied (PipeVerb (VFun (FUser test_verb)) [] []) (VObj "Tester" [])],
     Ok (VStr "VERB"))
  /\ rshift tests enabled (VObj "Tester" []) (VInt 1)
     = ([], Ok (VStr "TESTER")).
Proof. vm_compute. split; reflexivity. Qed.

(** A function that answers [NotImplemented] is taken by [>>] as a
    refusal: the pipe expression raises [TypeError] although the direct
    call returns a value. *)
Example declined_answer_is_type_error :
  call_func tests registered (FUser declining) [VList []] []
  = Ok VNotImplemented
  /\ pipe tests registered (VList []) (verb_of declining) [] []
     = ([Applied (PipeVerb (VFun (FUser declining)) [] []) (VList [])],
        Raise Unsupported).
Proof. vm_compute. split; reflexivity. Qed.

(** [test_PipeVerb]: [x = PipeVerb(f, 2, y=1)] and
    [x.__rrshift__(1) == f(1, 2, y=1)], for any function [f]. *)
Example test_PipeVerb (P : program) (f : nat) :
  (PipeVerb_rrshift P registered
     (PipeVerb (VFun (FUser f)) [VInt 2] [("y", VInt 1)]) (VInt 1)).2
  = call_func P registered (FUser f) [VInt 1; VInt 2] [("y", VInt 1)].
Proof. reflexivity. Qed.

Example well_formed_without_classes (ds : list dispatcher) :
  well_formed {| classes := ∅; dispatchers := ds |} = true.
Proof. apply bool_decide_eq_true. apply map_Forall_empty. Qed.

(** ** C1 *)



(** ** C4 *)



(** ** C2 and C3 *)

Lemma make_pipesource_idempotent_witness :
  type_lookup registered "Tester" "__rshift__" = Some (MFunc (FUser Tester_rshift))
  /\ state_after (make_pipesource "Tester") enabled = enabled
  /\ type_lookup (state_after (make_pipesource "Tester") enabled)
       "Tester" "__orig_rshift__" = Some (MFunc (FUser Tester_rshift)).
Proof.
  assert (H1 : type_lookup registered "Tester" "__rshift__"
               = Some (MFunc (FUser Tester_rshift))) by (vm_compute; reflexivity).
  assert (Hb : is_builtin "Tester" = false) by (vm_compute; reflexivity).
  assert (Hm : getattr_pipeoperator registered "Tester" = false)
    by (vm_compute; reflexivity).
  pose proof (make_pipesource_idempotent registered "Tester" _ H1) as H.
  cbv zeta in H. destruct H as (Hsame & _ & _ & Hrest).
  destruct (Hrest Hb Hm) as (Horig & _ & _).
  exact (conj H1 (conj Hsame Horig)).
Defined.


(** ** C5, C6, C7 and C8 *)

Example test_maintain_docstring :
  func_doc tests registered append_dispatching = Some "Docstring generic"
  /\ func_doc tests registered append = Some "Docstring generic".
Proof. vm_compute. split; reflexivity. Qed.

Lemma register_reexposed_witness :
  func_register append_dispatching = Some 0
  /\ outcome (pipeverb tests append_dispatching) registered = Ok append
  /\ func_register append = func_register append_dispatching
  /\ call_register append "str" append_list registered
     = call_register append_dispatching "str" append_list registered.
Proof.
  assert (H1 : outcome (pipeverb tests append_dispatching) registered = Ok append)
    by (vm_compute; reflexivity).
  destruct (register_reexposed tests registered append_dispatching append 0
              "str" append_list eq_refl H1) as (Hcap & Hcall & _).
  exact (conj eq_refl (conj H1 (conj Hcap Hcall))).
Defined.

Lemma registration_order_independent_witness :
  "list" ≠ "str"
  /\ state_after (register 0 "str" append2_list)
       (state_after (register 0 "list" append_list) registered)
     = state_after (register 0 "list" append_list)
         (state_after (register 0 "str" append2_list) registered).
Proof.
  assert (H1 : "list" ≠ "str") by discriminate.
  pose proof (registration_order_independent tests registered 0 "list" "str"
                append_list append2_list H1) as H.
  cbv zeta in H. exact (conj H1 (proj1 H)).
Defined.

(** ** C9 *)



(** ** C10 *)

(** C10 fails as stated: [PipeVerb] itself has no [__rshift__], and a
    deferred operation piped into a deferred operation is not applied:
    the operands have the same class, so Python does not try the
    reflected hook and raises [TypeError]. *)
Lemma verb_into_verb_is_unsupported :
  hasattr registered "PipeVerb" "__rshift__" = false
  /\ make_pipesource "PipeVerb" registered = (Ok tt, registered)
  /\ rshift tests (state_after (make_pipesource "PipeVerb") registered)
       (PipeVerb (VFun (FUser identity)) [] [])
       (PipeVerb (VFun (FUser test_verb)) [] [])
     = ([], Raise Unsupported).
Proof. vm_compute. repeat split; reflexivity. Qed.

Lemma class_without_operator_witness :
  hasattr registered "list" "__rshift__" = false
  /\ type_of (VList []) = "list"
  /\ make_pipesource "list" registered = (Ok tt, registered)
  /\ (rshift tests (state_after (make_pipesource "list") registered) (VList [])
        (PipeVerb (VFun append_dispatching) [] [])).1
     = [Applied (PipeVerb (VFun append_dispatching) [] []) (VList [])].
Proof.
  assert (H1 : hasattr registered "list" "__rshift__" = false)
    by (vm_compute; reflexivity).
  destruct (class_without_operator tests registered "list" (VList [])
              (VFun append_dispatching) [] [] H1 eq_refl) as [Hskip Happly].
  assert (Hne : "list" ≠ "PipeVerb") by discriminate.
  exact (conj H1 (conj eq_refl (conj Hskip (proj1 (Happly Hne))))).
Defined.

(** * Further properties of the code *)

Section Further.

Context (P : program).

Lemma make_pipesource_state (w : world) (cls : string) :
  state_after (make_pipesource cls) w = w
  \/ exists orig,
       type_lookup w cls "__rshift__" = Some orig
       /\ getattr_pipeoperator w cls = false
       /\ is_builtin cls = false
       /\ state_after (make_pipesource cls) w = rebind cls (enabled_dict orig) w.
Proof.
  unfold state_after.
  destruct (hasattr w cls "__rshift__" && negb (getattr_pipeoperator w cls))
    eqn:Hgo; [|left; by rewrite make_pipesource_skips].
  destruct (is_builtin cls) eqn:Hb;
    [left; by rewrite make_pipesource_refused|].
  apply andb_true_iff in Hgo as [Hh Hm]. apply negb_true_iff in Hm.
  unfold hasattr in Hh.
  destruct (type_lookup w cls "__rshift__") as [orig|] eqn:Horig; [|done].
  right. exists orig. by rewrite (make_pipesource_patches w cls orig).
Qed.



(** X1.  After [make_pipesource(cls)] on a user-defined class with a
    [>>] operator, [instance >> deferred_operation] applies the deferred
    operation once and has the outcome of calling its function on the
    instance and the captured arguments (unless that is
    [NotImplemented]), whatever the class's own operator would answer. *)
Theorem enabled_class_pipes (w : world) (cls : string) (instance func : value)
    (args : list value) (kwargs : list (string * value)) :
  hasattr w cls "__rshift__" = true ->
  is_builtin cls = false ->
  type_of instance = cls ->
  call_value P w func (instance :: args) kwargs ≠ Ok VNotImplemented ->
  rshift P (state_after (make_pipesource cls) w) instance
         (PipeVerb func args kwargs)
  = ([Applied (PipeVerb func args kwargs) instance],
     call_value P w func (instance :: args) kwargs).
Proof.
  intros Hh Hb Hty Hr. unfold PipeVerb.
  assert (Hne : String.eqb cls "PipeVerb" = false).
  { apply String.eqb_neq. intros ->. discriminate Hb. }
  unfold state_after.
  destruct (negb (getattr_pipeoperator w cls)) eqn:Hm.
  - unfold hasattr in Hh.
    destruct (type_lookup w cls "__rshift__") as [orig|] eqn:Horig; [|done].
    apply negb_true_iff in Hm.
    rewrite (make_pipesource_patches w cls orig) by done. cbn [snd].
    destruct (class_exists w cls _ _ Hb Horig) as [r Hr'].
    assert (Hcall : call_value P (rebind cls (enabled_dict orig) w) func
                      (instance :: args) kwargs
                    = call_value P w func (instance :: args) kwargs).
    { destruct func; try reflexivity. apply rebind_call_func. }
    rewrite <- Hcall. apply rshift_applies; [|by rewrite Hcall].
    unfold pipe_source. rewrite Hty, Hne. cbn [negb andb].
    by rewrite (rebind_lookup_bound w cls _ "__rshift__" (MPipeOperator true)
                  r Hb Hr' (enabled_dict_rshift _ _)).
  - rewrite make_pipesource_skips by (rewrite Hm; apply andb_false_r).
    cbn [snd]. apply rshift_applies; [|done].
    unfold pipe_source. rewrite Hty, Hne. cbn [negb andb].
    apply negb_false_iff in Hm. unfold getattr_pipeoperator in Hm.
    by destruct (type_lookup w cls "__rshift__") as [[]|].
Qed.

(** Classes as the user wrote them, without any closure of
    [make_pipesource], satisfy the invariant. *)
Lemma fresh_classes_well_formed (w : world) :
  (forall c r attr marker,
      classes w !! c = Some r -> c_dict r !! attr ≠ Some (MPipeOperator marker)) ->
  well_formed w = true.
Proof.
  intros Hfresh.
  apply bool_decide_eq_true. apply map_Forall_lookup_2. intros c r Hr.
  apply map_Forall_lookup_2. intros attr m Hm.
  destruct m as [|marker| | |]; try reflexivity.
  by destruct (Hfresh c r attr marker Hr).
Qed.


(** X4.  On a class whose [>>] is the closure of [make_pipesource], a
    deferred operation whose function answers [NotImplemented] is applied
    twice, by the closure and again by the reflected hook that Python
    tries after the refusal, and the expression raises [TypeError]. *)
Theorem declined_verb_is_applied_twice (w : world) (instance func : value)
    (args : list value) (kwargs : list (string * value)) (marker : bool) :
  type_lookup w (type_of instance) "__rshift__" = Some (MPipeOperator marker) ->
  call_value P w func (instance :: args) kwargs = Ok VNotImplemented ->
  rshift P w instance (PipeVerb func args kwargs)
  = ([Applied (PipeVerb func args kwargs) instance;
      Applied (PipeVerb func args kwargs) instance],
     Raise Unsupported).
Proof.
  intros Hop Hr. unfold PipeVerb.
  assert (Hsub : is_proper_subclass w "PipeVerb" (type_of instance) = false).
  { destruct (is_proper_subclass _ _ _) eqn:E; [|done].
    apply PipeVerb_below in E. rewrite E, object_has_no_rshift in Hop.
    discriminate. }
  assert (Hc : String.eqb (type_of instance) "PipeVerb" = false).
  { apply String.eqb_neq. intros E.
    rewrite E, PipeVerb_has_no_rshift in Hop. discriminate. }
  unfold rshift. cbn [type_of].
  rewrite Hsub, Hc, Hop, PipeVerb_has_rrshift. cbn [andb].
  rewrite reflected_hook, pipe_operator_verb, Hr. reflexivity.
Qed.


(** X6.  [PipeVerb] does not validate what it stores: a deferred
    operation built around a value that is not callable (None, a number,
    a string, a list, another deferred operation) is built without
    error, and piping a subject into it raises [TypeError]. *)
Theorem unchecked_function_fails_when_piped (w : world)
    (subject func : value) (args : list value) (kwargs : list (string * value)) :
  match func with VFun _ | VObj _ _ => False | _ => True end ->
  pipe_source w (type_of subject) = true ->
  rshift P w subject (PipeVerb func args kwargs)
  = ([Applied (PipeVerb func args kwargs) subject], Raise NotCallable).
Proof.
  intros Hfunc Hsrc. unfold PipeVerb.
  rewrite rshift_applies; [|done|]; by destruct func.
Qed.





(** ** Enablement and inheritance *)



Lemma rebind_lookup_along (w : world) (cls : string)
    (g : gmap string meth -> gmap string meth) (cs : list string)
    (attr : string) :
  cls ∉ cs -> lookup_along (rebind cls g w) cs attr = lookup_along w cs attr.
Proof.
  induction cs as [|c cs IH]; [done|].
  intros [Hne Hin]%not_elem_of_cons. cbn.
  rewrite rebind_class_dict_other by done. by rewrite IH.
Qed.

Lemma rebind_lookup_unrelated (w : world) (cls : string)
    (g : gmap string meth -> gmap string meth) (c attr : string) :
  cls ∉ mro w c -> type_lookup (rebind cls g w) c attr = type_lookup w c attr.
Proof.
  intros Hnot. unfold type_lookup. rewrite rebind_mro.
  by apply rebind_lookup_along.
Qed.

Lemma rebind_pipe_operator (w : world) (cls : string)
    (g : gmap string meth -> gmap string meth) (self other : value) :
  type_lookup (rebind cls g w) (type_of self) "__orig_rshift__"
  = type_lookup w (type_of self) "__orig_rshift__" ->
  pipe_operator P (rebind cls g w) self other = pipe_operator P w self other.
Proof.
  intros Hsaved. unfold pipe_operator. rewrite Hsaved.
  destruct (isinstance_PipeVerb other).
  - exact (rebind_call_with P w cls g (quiet (Ok VNone)) MVerbRRshift other self).
  - destruct (type_lookup w (type_of self) "__orig_rshift__"); [|done].
    apply rebind_call_with.
Qed.

Lemma rebind_call_meth (w : world) (cls : string)
    (g : gmap string meth -> gmap string meth) (m : meth) (self other : value) :
  (forall marker, m ≠ MPipeOperator marker)
  \/ type_lookup (rebind cls g w) (type_of self) "__orig_rshift__"
     = type_lookup w (type_of self) "__orig_rshift__" ->
  call_meth P (rebind cls g w) m self other = call_meth P w m self other.
Proof.
  intros H. unfold call_meth. rewrite rebind_call_with.
  destruct H as [Hplain|Hsaved].
  - by apply call_with_plain.
  - by rewrite rebind_pipe_operator.
Qed.

Lemma rebind_rshift (w : world) (cls : string)
    (g : gmap string meth -> gmap string meth) (v x : value) :
  (forall d, g d !! "__rrshift__" = d !! "__rrshift__") ->
  type_lookup (rebind cls g w) (type_of v) "__rshift__"
  = type_lookup w (type_of v) "__rshift__" ->
  (forall m, type_lookup w (type_of v) "__rshift__" = Some m ->
             call_meth P (rebind cls g w) m v x = call_meth P w m v x) ->
  (forall m, type_lookup w (type_of x) "__rrshift__" = Some m ->
             call_meth P (rebind cls g w) m x v = call_meth P w m x v) ->
  rshift P (rebind cls g w) v x = rshift P w v x.
Proof.
  intros Hg Hop Hforward Hreflected.
  assert (Hframe : forall c, type_lookup (rebind cls g w) c "__rrshift__"
                             = type_lookup w c "__rrshift__").
  { by apply rebind_lookup_frame. }
  unfold rshift, is_proper_subclass, method_is_overloaded.
  rewrite Hop, !Hframe, rebind_mro.
  destruct (type_lookup w (type_of v) "__rshift__") as [m|] eqn:Hm;
    [rewrite (Hforward m eq_refl)|];
    (destruct (type_lookup w (type_of x) "__rrshift__") as [m'|] eqn:Hm';
       [by rewrite (Hreflected m' eq_refl)|done]).
Qed.



(** X10.  Enabling a class changes nothing for operands whose classes do
    not descend from it: [v >> x] has the outcome it had, whatever [x]
    is. *)
Theorem unrelated_classes_unaffected (w : world) (cls : string) (v x : value) :
  cls ∉ mro w (type_of v) ->
  cls ∉ mro w (type_of x) ->
  rshift P (state_after (make_pipesource cls) w) v x = rshift P w v x.
Proof.
  intros Hv Hx.
  destruct (make_pipesource_state w cls)
    as [->|(orig & _ & _ & _ & ->)]; [done|].
  apply rebind_rshift.
  - intros d. by apply enabled_dict_other.
  - by apply rebind_lookup_unrelated.
  - intros m _. apply rebind_call_meth. right.
    by apply rebind_lookup_unrelated.
  - intros m _. apply rebind_call_meth. right.
    by apply rebind_lookup_unrelated.
Qed.

Lemma make_pipesource_formula (w : world) (cls : string) :
  state_after (make_pipesource cls) w
  = match type_lookup w cls "__rshift__" with
    | Some orig =>
        if negb (getattr_pipeoperator w cls) && negb (is_builtin cls)
        then rebind cls (enabled_dict orig) w
        else w
    | None => w
    end.
Proof.
  unfold state_after.
  destruct (type_lookup w cls "__rshift__") as [orig|] eqn:Horig.
  - destruct (getattr_pipeoperator w cls) eqn:Hm.
    + rewrite make_pipesource_skips; [done|]. rewrite Hm. apply andb_false_r.
    + destruct (is_builtin cls) eqn:Hb.
      * rewrite make_pipesource_refused; [done| |done].
        unfold hasattr. by rewrite Horig, Hm.
      * by rewrite (make_pipesource_patches w cls orig).
  - rewrite make_pipesource_skips; [done|]. unfold hasattr. by rewrite Horig.
Qed.

Lemma rebind_commute (w : world) (a b : string)
    (ga gb : gmap string meth -> gmap string meth) :
  a ≠ b -> rebind a ga (rebind b gb w) = rebind b gb (rebind a ga w).
Proof.
  intros Hne. unfold rebind, set_classes. cbn. f_equal.
  by apply alter_alter_ne.
Qed.

(** X11.  The order in which two classes are enabled does not matter
    when neither descends from the other: both orders leave the same
    store. *)
Theorem enabling_unrelated_classes_commutes (w : world) (a b : string) :
  a ∉ mro w b ->
  b ∉ mro w a ->
  state_after (make_pipesource b) (state_after (make_pipesource a) w)
  = state_after (make_pipesource a) (state_after (make_pipesource b) w).
Proof.
  intros Hab Hba.
  assert (Hne : a ≠ b).
  { intros ->. apply Hab. unfold mro. apply elem_of_cons. by left. }
  assert (Hkeep : forall c d g,
            d ∉ mro w c ->
            type_lookup (rebind d g w) c "__rshift__"
            = type_lookup w c "__rshift__"
            /\ getattr_pipeoperator (rebind d g w) c = getattr_pipeoperator w c).
  { intros c d g Hnot. unfold getattr_pipeoperator.
    by rewrite rebind_lookup_unrelated. }
  rewrite (make_pipesource_formula w a), (make_pipesource_formula w b).
  destruct (type_lookup w a "__rshift__") as [oa|] eqn:Ha;
    destruct (type_lookup w b "__rshift__") as [ob|] eqn:Hb;
    try (destruct (negb (getattr_pipeoperator w a) && negb (is_builtin a))
           eqn:Hga);
    try (destruct (negb (getattr_pipeoperator w b) && negb (is_builtin b))
           eqn:Hgb);
    rewrite ?make_pipesource_formula;
    repeat match goal with
      | |- context [type_lookup (rebind ?d ?g w) ?c "__rshift__"] =>
          destruct (Hkeep c d g) as [-> ->]; [done|]
      end;
    rewrite ?Ha, ?Hb, ?Hga, ?Hgb; try reflexivity.
  by apply rebind_commute.
Qed.

End Further.

(** * The further properties on the scenarios *)

Lemma enabled_class_pipes_witness :
  hasattr registered "Tester" "__rshift__" = true
  /\ is_builtin "Tester" = false
  /\ rshift tests enabled (VObj "Tester" [])
       (PipeVerb (VFun (FUser test_verb)) [] [])
     = ([Applied (PipeVerb (VFun (FUser test_verb)) [] []) (VObj "Tester" [])],
        call_value tests registered (VFun (FUser test_verb)) [VObj "Tester" []] []).
Proof.
  assert (H1 : hasattr registered "Tester" "__rshift__" = true)
    by (vm_compute; reflexivity).
  assert (H2 : is_builtin "Tester" = false) by (vm_compute; reflexivity).
  refine (conj H1 (conj H2 _)).
  apply (enabled_class_pipes tests registered "Tester" (VObj "Tester" [])
           (VFun (FUser test_verb)) [] [] H1 H2 eq_refl).
  vm_compute. discriminate.
Defined.


Lemma declined_verb_is_applied_twice_witness :
  type_lookup enabled (type_of (VObj "Tester" [])) "__rshift__"
  = Some (MPipeOperator true)
  /\ rshift tests enabled (VObj "Tester" [])
       (PipeVerb (VFun (FUser declining)) [] [])
     = ([Applied (PipeVerb (VFun (FUser declining)) [] []) (VObj "Tester" []);
         Applied (PipeVerb (VFun (FUser declining)) [] []) (VObj "Tester" [])],
        Raise Unsupported).
Proof.
  assert (H1 : type_lookup enabled (type_of (VObj "Tester" [])) "__rshift__"
               = Some (MPipeOperator true)) by (vm_compute; reflexivity).
  refine (conj H1 _).
  apply (declined_verb_is_applied_twice tests enabled (VObj "Tester" [])
           (VFun (FUser declining)) [] [] true H1).
  vm_compute. reflexivity.
Defined.


Lemma unchecked_function_fails_when_piped_witness :
  pipe_source registered (type_of (VList [])) = true
  /\ rshift tests registered (VList []) (PipeVerb (VInt 5) [] [])
     = ([Applied (PipeVerb (VInt 5) [] []) (VList [])], Raise NotCallable).
Proof.
  assert (H1 : pipe_source registered (type_of (VList [])) = true)
    by (vm_compute; reflexivity).
  exact (conj H1 (unchecked_function_fails_when_piped tests registered
                    (VList []) (VInt 5) [] [] I H1)).
Defined.




Lemma unrelated_classes_unaffected_witness :
  ("Tester" ∉ mro registered (type_of (VObj "Shy" [])))
  /\ ("Tester" ∉ mro registered (type_of (VInt 1)))
  /\ rshift tests enabled (VObj "Shy" []) (VInt 1)
     = rshift tests registered (VObj "Shy" []) (VInt 1).
Proof.
  assert (H1 : "Tester" ∉ mro registered (type_of (VObj "Shy" []))).
  { refine (bool_decide_unpack _ _). vm_compute. exact I. }
  assert (H2 : "Tester" ∉ mro registered (type_of (VInt 1))).
  { refine (bool_decide_unpack _ _). vm_compute. exact I. }
  exact (conj H1 (conj H2
           (unrelated_classes_unaffected tests registered "Tester"
              (VObj "Shy" []) (VInt 1) H1 H2))).
Defined.

Lemma enabling_unrelated_classes_commutes_witness :
  ("Tester" ∉ mro registered "Shy")
  /\ ("Shy" ∉ mro registered "Tester")
  /\ state_after (make_pipesource "Shy")
       (state_after (make_pipesource "Tester") registered)
     = state_after (make_pipesource "Tester")
         (state_after (make_pipesource "Shy") registered).
Proof.
  assert (H1 : "Tester" ∉ mro registered "Shy").
  { refine (bool_decide_unpack _ _). vm_compute. exact I. }
  assert (H2 : "Shy" ∉ mro registered "Tester").
  { refine (bool_decide_unpack _ _). vm_compute. exact I. }
  exact (conj H1 (conj H2
           (enabling_unrelated_classes_commutes registered "Tester" "Shy" H1 H2))).
Defined.
